(** * umami.calculations.metric.chi_intercept_gradient

    A shallow embedding of the two chi metrics of umami and of the
    validator they share, with the properties the specification states
    about them.

    The module is three short Python functions.  What they do is decided
    by four pieces of Python semantics, each modelled below:
    - [isinstance] against the class [ChiFinder],
    - [raise ValueError(msg)],
    - a method call on the handle, which may read and write the store and
      may itself raise,
    - the unpacking assignment [slp, incp = ...].

    Python code is stateful and fallible, so the functions live in a small
    state-and-exception monad [M] over a [world]. *)

From Stdlib Require Import String List Bool Arith Lia PrimFloat DecimalString.
Import ListNotations.
Open Scope string_scope.

(** ** Exceptions and outcomes *)

(** A raised exception: its class, by name, and its message
    ([str(e)], the single argument the exception was built from). *)
Record exception : Type := Exc { exc_class : string; exc_msg : string }.

Definition ValueError (msg : string) : exception := Exc "ValueError" msg.
Definition TypeError (msg : string) : exception := Exc "TypeError" msg.
Definition AttributeError (msg : string) : exception := Exc "AttributeError" msg.

(** A call either returns a value or raises. *)
Inductive outcome (A : Type) : Type :=
| Return (a : A)
| Raise (e : exception).

Arguments Return {A} a.
Arguments Raise {A} e.

Section Model.

(** The interpreter's store: the state of every object the handle can
    reach (its grid, its chi field, ...).  The module never looks inside,
    so it is kept abstract. *)
Context {heap : Type}.

(** ** Python objects

    The objects that can be passed to, or come back from, the functions
    of the module.  An instance carries the method resolution order of its
    class, by class name, and the bound method that the attribute lookup
    [self.best_fit_chi_elevation_gradient_and_intercept] finds on it: a
    function that reads the store and gives back an outcome and the store
    it leaves behind. *)
#[local] Set Warnings "-register-all".
Inductive object : Type :=
| PyNone
| PyFloat (x : float)
| PyTuple (items : list object)
| PyArray (data : list float)
| PyInstance (mro : list string)
             (best_fit : heap -> outcome object * heap).

(** [type(o).__mro__], by class name. *)
Definition type_mro (o : object) : list string :=
  match o with
  | PyNone => ["NoneType"; "object"]
  | PyFloat _ => ["float"; "object"]
  | PyTuple _ => ["tuple"; "object"]
  | PyArray _ => ["ndarray"; "object"]
  | PyInstance mro _ => mro
  end.

Definition type_name (o : object) : string := hd "object" (type_mro o).

(** [isinstance(o, cls)] for a class with the default metaclass: [cls] is
    one of the classes of the object's type. *)
Definition isinstance (o : object) (cls : string) : bool :=
  existsb (String.eqb cls) (type_mro o).

(** [from landlab.components import ChiFinder] *)
Definition ChiFinder : string := "ChiFinder".

(** ** The monad *)

(** The world a call runs in: the store, and a ghost counter of the calls
    made so far to a handle's fit routine.  The counter is observation
    only: no function of the module reads it. *)
Record world : Type := World { store : heap; fit_calls : nat }.

Definition M (A : Type) : Type := world -> outcome A * world.

Definition ret {A : Type} (a : A) : M A := fun w => (Return a, w).

Definition raise {A : Type} (e : exception) : M A := fun w => (Raise e, w).

(** Sequencing: an exception of the first computation ends the run, with
    the world as the first computation left it. *)
Definition bind {A B : Type} (m : M A) (k : A -> M B) : M B :=
  fun w =>
    match m w with
    | (Return a, w') => k a w'
    | (Raise e, w') => (Raise e, w')
    end.

Notation "x <- m ;; k" := (bind m (fun x => k))
  (at level 100, m at next level, right associativity).
Notation "m ;;; k" := (bind m (fun _ => k))
  (at level 100, right associativity).

(** ** The interpreter's part *)

(** The world after a call of the fit routine that left the store [s]. *)
Definition after_fit (w : world) (s : heap) : world :=
  {| store := s; fit_calls := S (fit_calls w) |}.

(** The method call [self.best_fit_chi_elevation_gradient_and_intercept()]:
    on an instance, run the bound method on the store and count the call;
    the other objects have no such attribute. *)
Definition best_fit_chi_elevation_gradient_and_intercept (self : object)
  : M object :=
  match self with
  | PyInstance _ best_fit =>
      fun w =>
        let (r, s) := best_fit (store w) in
        (r, after_fit w s)
  | _ =>
      raise (AttributeError
               ("'" ++ type_name self ++ "' object has no attribute "
                ++ "'best_fit_chi_elevation_gradient_and_intercept'"))
  end.

(** The items an unpacking assignment draws from an object, when the
    object is iterable. *)
Definition iter_items (o : object) : option (list object) :=
  match o with
  | PyTuple items => Some items
  | PyArray data => Some (map PyFloat data)
  | _ => None
  end.

Definition decimal (n : nat) : string :=
  NilEmpty.string_of_uint (Nat.to_uint n).

(** The exception CPython raises when a two-target unpacking meets [n]
    items, [n <> 2]. *)
Definition unpack_error (n : nat) : exception :=
  if Nat.ltb n 2
  then ValueError ("not enough values to unpack (expected 2, got "
                   ++ decimal n ++ ")")
  else ValueError "too many values to unpack (expected 2)".

(** The unpacking assignment [a, b = o]. *)
Definition unpack2 (o : object) : M (object * object) :=
  match iter_items o with
  | None =>
      raise (TypeError ("cannot unpack non-iterable " ++ type_name o
                        ++ " object"))
  | Some [a; b] => ret (a, b)
  | Some items => raise (unpack_error (List.length items))
  end.

(** ** The module *)

Definition _validate_chi_finder (chi_finder : object) : M unit :=
  if negb (isinstance chi_finder ChiFinder) then
    let msg := "" in
    raise (ValueError msg)
  else ret tt.

Definition chi_intercept (chi_finder : object) : M object :=
  _validate_chi_finder chi_finder ;;;
  t <- best_fit_chi_elevation_gradient_and_intercept chi_finder ;;
  p <- unpack2 t ;;
  let (slp, incp) := p in
  ret incp.

Definition chi_gradient (chi_finder : object) : M object :=
  _validate_chi_finder chi_finder ;;;
  t <- best_fit_chi_elevation_gradient_and_intercept chi_finder ;;
  p <- unpack2 t ;;
  let (slp, incp) := p in
  ret slp.

(** ** Vocabulary of the specification *)

(** The specification calls the validator's error [InvalidArgumentType];
    in the code it is the built-in [ValueError] raised with the empty
    message. *)
Definition InvalidArgumentType : exception := ValueError "".

(** The two metric functions, as a caller addresses them. *)
Inductive metric : Type := Intercept | Gradient.

Definition metric_function (m : metric) : object -> M object :=
  match m with
  | Intercept => chi_intercept
  | Gradient => chi_gradient
  end.

(** A caller invoking metric functions one after the other on one handle,
    each in the world the one before left, whatever its outcome. *)
Fixpoint invoke_all (ms : list metric) (h : object) (w : world) : world :=
  match ms with
  | [] => w
  | m :: ms' => invoke_all ms' h (snd (metric_function m h w))
  end.

(** What the fit routine of a handle does on a store; [None] for an
    object that has none. *)
Definition fit_of (h : object) (s : heap) : option (outcome object * heap) :=
  match h with
  | PyInstance _ best_fit => Some (best_fit s)
  | _ => None
  end.

(** The fit routine of the handle writes nothing to the store. *)
Definition non_mutating (h : object) : Prop :=
  forall s r s', fit_of h s = Some (r, s') -> s' = s.

(** The store the fit routine of a handle leaves when run on [s]; an
    object without one leaves the store as it is. *)
Definition fit_store (h : object) (s : heap) : heap :=
  match fit_of h s with
  | Some (_, s') => s'
  | None => s
  end.


End Model.

Arguments object heap : clear implicits.
Arguments world heap : clear implicits.
Arguments M heap A : clear implicits.

(** ** Sample handles

    Concrete objects on which the theorems below are run.  The store is a
    single number. *)

Definition ChiFinder_mro : list string := ["ChiFinder"; "Component"; "object"].

(** A handle whose fit is a pure function of the store. *)
Definition cf : object nat :=
  PyInstance ChiFinder_mro
    (fun s => (Return (PyTuple [PyFloat 1.5%float; PyFloat (-0.25)%float]), s)).

(** A handle whose field is degenerate: the fit fails, as [numpy.polyfit]
    does on an empty sample. *)
Definition cf_degenerate : object nat :=
  PyInstance ChiFinder_mro
    (fun s => (Raise (TypeError "expected non-empty vector for x"), s)).

(** A handle of a subclass whose fit yields three values. *)
Definition cf_triple : object nat :=
  PyInstance ("ChiFinder3" :: ChiFinder_mro)
    (fun s => (Return (PyTuple [PyFloat 1.5%float; PyFloat (-0.25)%float;
                                PyFloat 0.5%float]), s)).

(** A handle whose fit writes the store on every call. *)
Definition cf_mutating : object nat :=
  PyInstance ChiFinder_mro
    (fun s => (Return (PyArray [2.0%float; 3.0%float]), S s)).

(** An object of an unrelated class that happens to have a method of the
    same name, which would write the store if it were called. *)
Definition stranger : object nat :=
  PyInstance ["FlowAccumulator"; "Component"; "object"]
    (fun s => (Return (PyTuple [PyFloat 0%float; PyFloat 0%float]), S s)).

Definition raw_array : object nat := PyArray [1.0%float; 2.0%float].

(** A handle of a subclass whose fit forgets to return: it writes the
    store and gives back [None]. *)
Definition cf_none : object nat :=
  PyInstance ("QuietChiFinder" :: ChiFinder_mro)
    (fun s => (Return PyNone, S s)).


Definition w0 : world nat := {| store := 7; fit_calls := 0 |}.

(** * Properties *)

Section Properties.

Context {heap : Type}.

Implicit Types (h : object heap) (w : world heap) (s : heap).

(** ** The monad steps of the module, one at a time *)

Lemma instance_inv h :
  isinstance h ChiFinder = true ->
  exists mro best_fit, h = PyInstance mro best_fit.
Proof.
  destruct h as [ | x | items | data | mro best_fit ]; intros Hi;
    try (vm_compute in Hi; discriminate Hi).
  exists mro, best_fit; reflexivity.
Qed.

Lemma validate_instance h w :
  isinstance h ChiFinder = true ->
  _validate_chi_finder h w = (Return tt, w).
Proof.
  intros Hi. unfold _validate_chi_finder. rewrite Hi. reflexivity.
Qed.

Lemma validate_other h w :
  isinstance h ChiFinder = false ->
  _validate_chi_finder h w = (Raise InvalidArgumentType, w).
Proof.
  intros Hi. unfold _validate_chi_finder. rewrite Hi. reflexivity.
Qed.

Lemma call_fit h w r s :
  fit_of h (store w) = Some (r, s) ->
  best_fit_chi_elevation_gradient_and_intercept h w = (r, after_fit w s).
Proof.
  destruct h as [ | x | items | data | mro best_fit ]; simpl; intros Hf;
    try discriminate Hf.
  injection Hf as Hf. rewrite Hf. reflexivity.
Qed.

(** A metric function on a valid handle is the fit followed by the
    unpacking and the choice of one of the two values. *)
Lemma chi_intercept_valid h w r s :
  isinstance h ChiFinder = true ->
  fit_of h (store w) = Some (r, s) ->
  chi_intercept h w =
    match r with
    | Raise e => (Raise e, after_fit w s)
    | Return t => bind (unpack2 t) (fun p => ret (snd p)) (after_fit w s)
    end.
Proof.
  intros Hi Hf. unfold chi_intercept, bind at 1 2.
  rewrite (validate_instance h w Hi), (call_fit h w r s Hf).
  destruct r as [t | e]; [ | reflexivity ].
  unfold bind. destruct (unpack2 t (after_fit w s)) as [[[a b] | e] w'];
    reflexivity.
Qed.

Lemma chi_gradient_valid h w r s :
  isinstance h ChiFinder = true ->
  fit_of h (store w) = Some (r, s) ->
  chi_gradient h w =
    match r with
    | Raise e => (Raise e, after_fit w s)
    | Return t => bind (unpack2 t) (fun p => ret (fst p)) (after_fit w s)
    end.
Proof.
  intros Hi Hf. unfold chi_gradient, bind at 1 2.
  rewrite (validate_instance h w Hi), (call_fit h w r s Hf).
  destruct r as [t | e]; [ | reflexivity ].
  unfold bind. destruct (unpack2 t (after_fit w s)) as [[[a b] | e] w'];
    reflexivity.
Qed.

(** The unpacking of a sequence succeeds on two items and on nothing
    else. *)
Lemma unpack2_pair (a b : object heap) w :
  unpack2 (PyTuple [a; b]) w = (Return (a, b), w).
Proof. reflexivity. Qed.

Lemma unpack2_wrong_length (t : object heap) items w :
  iter_items t = Some items ->
  length items <> 2 ->
  unpack2 t w = (Raise (unpack_error (length items)), w).
Proof.
  intros Ht Hn. unfold unpack2. rewrite Ht.
  destruct items as [ | a [ | b [ | c rest ] ] ]; try reflexivity.
  exfalso; apply Hn; reflexivity.
Qed.

Lemma unpack2_returns (t : object heap) w p w' :
  unpack2 t w = (Return p, w') ->
  exists a b, iter_items t = Some [a; b] /\ p = (a, b) /\ w' = w.
Proof.
  unfold unpack2. destruct (iter_items t) as [ items | ].
  - destruct items as [ | a [ | b [ | c rest ] ] ]; unfold ret, raise;
      intros H; try discriminate H.
    injection H as Hp Hw. exists a, b. auto.
  - unfold raise. intros H. discriminate H.
Qed.

(** Unpacking an iterable of exactly two items gives the two items. *)
Lemma unpack2_two_items (t : object heap) (a b : object heap) w :
  iter_items t = Some [a; b] ->
  unpack2 t w = (Return (a, b), w).
Proof. intros Ht. unfold unpack2. rewrite Ht. reflexivity. Qed.

(** The validator's failure ends a metric function at once. *)
Lemma invalid_handle_raises h w :
  isinstance h ChiFinder = false ->
  chi_intercept h w = (Raise InvalidArgumentType, w) /\
  chi_gradient h w = (Raise InvalidArgumentType, w).
Proof.
  intros Hi. split.
  - unfold chi_intercept, bind at 1. rewrite (validate_other h w Hi).
    reflexivity.
  - unfold chi_gradient, bind at 1. rewrite (validate_other h w Hi).
    reflexivity.
Qed.

(** The unpacking neither reads nor writes the world. *)
Lemma unpack2_pure (t : object heap) w w' :
  unpack2 t w = (fst (unpack2 t w'), w).
Proof.
  unfold unpack2. destruct (iter_items t) as [ items | ]; [ | reflexivity ].
  destruct items as [ | a [ | b [ | c rest ] ] ]; reflexivity.
Qed.

(** Unpacking and then choosing one of the two values: the world is kept,
    and the outcome does not depend on it. *)
Lemma select_world (t : object heap) (f : object heap * object heap -> object heap) w :
  snd (bind (unpack2 t) (fun p => ret (f p)) w) = w.
Proof.
  unfold bind. rewrite (unpack2_pure t w w).
  destruct (fst (unpack2 t w)) as [p | e]; reflexivity.
Qed.

Lemma select_outcome (t : object heap) (f : object heap * object heap -> object heap) w w' :
  fst (bind (unpack2 t) (fun p => ret (f p)) w) =
  fst (bind (unpack2 t) (fun p => ret (f p)) w').
Proof.
  unfold bind. rewrite (unpack2_pure t w w'), (unpack2_pure t w' w').
  destruct (fst (unpack2 t w')) as [p | e]; reflexivity.
Qed.

(** A valid handle has a fit routine. *)
Lemma valid_handle_fit h s :
  isinstance h ChiFinder = true ->
  exists r s', fit_of h s = Some (r, s').
Proof.
  intros Hi. destruct (instance_inv h Hi) as (mro & best_fit & ->).
  simpl. destruct (best_fit s) as [r s']. exists r, s'. reflexivity.
Qed.

(** The world a metric function leaves on a valid handle is the one the
    single call of the fit left. *)
Lemma metric_world_after m h w r s :
  isinstance h ChiFinder = true ->
  fit_of h (store w) = Some (r, s) ->
  snd (metric_function m h w) = after_fit w s.
Proof.
  intros Hi Hf. destruct m; simpl.
  - rewrite (chi_intercept_valid h w r s Hi Hf).
    destruct r as [t | e]; [ apply select_world | reflexivity ].
  - rewrite (chi_gradient_valid h w r s Hi Hf).
    destruct r as [t | e]; [ apply select_world | reflexivity ].
Qed.

(** The outcome of a metric function on a valid handle is decided by the
    outcome of the fit alone. *)
Lemma metric_outcome_from_fit m h1 h2 w1 w2 r s1 s2 :
  isinstance h1 ChiFinder = true ->
  isinstance h2 ChiFinder = true ->
  fit_of h1 (store w1) = Some (r, s1) ->
  fit_of h2 (store w2) = Some (r, s2) ->
  fst (metric_function m h1 w1) = fst (metric_function m h2 w2).
Proof.
  intros Hi1 Hi2 Hf1 Hf2. destruct m; simpl.
  - rewrite (chi_intercept_valid h1 w1 r s1 Hi1 Hf1),
            (chi_intercept_valid h2 w2 r s2 Hi2 Hf2).
    destruct r as [t | e]; [ apply select_outcome | reflexivity ].
  - rewrite (chi_gradient_valid h1 w1 r s1 Hi1 Hf1),
            (chi_gradient_valid h2 w2 r s2 Hi2 Hf2).
    destruct r as [t | e]; [ apply select_outcome | reflexivity ].
Qed.

(** The store a metric function leaves, on any object: the one the fit
    left when the handle is valid, the one it found otherwise. *)
Lemma metric_store_after m h w :
  store (snd (metric_function m h w)) =
    if isinstance h ChiFinder
    then match fit_of h (store w) with
         | Some (_, s) => s
         | None => store w
         end
    else store w.
Proof.
  destruct (isinstance h ChiFinder) eqn:Hi.
  - destruct (valid_handle_fit h (store w) Hi) as (r & s & Hf).
    rewrite Hf, (metric_world_after m h w r s Hi Hf). reflexivity.
  - destruct (invalid_handle_raises h w Hi) as [Hci Hcg].
    destruct m; simpl; [ rewrite Hci | rewrite Hcg ]; reflexivity.
Qed.

(** Two runs of a metric function on a valid handle, from worlds with the
    same store, have the same outcome. *)
Lemma metric_two_runs m h w1 w2 :
  isinstance h ChiFinder = true ->
  store w1 = store w2 ->
  fst (metric_function m h w1) = fst (metric_function m h w2).
Proof.
  intros Hi Hs.
  destruct (valid_handle_fit h (store w1) Hi) as (r & s & Hf1).
  assert (Hf2 : fit_of h (store w2) = Some (r, s)) by (rewrite <- Hs; exact Hf1).
  apply (metric_outcome_from_fit m h h w1 w2 r s s Hi Hi Hf1 Hf2).
Qed.

(** In particular a metric function called twice in a row on a valid handle
    whose fit writes nothing returns the same outcome twice, whichever
    metric function was called first. *)
Lemma metric_successive_calls m m' h w :
  isinstance h ChiFinder = true ->
  non_mutating h ->
  fst (metric_function m h (snd (metric_function m' h w)))
    = fst (metric_function m h w).
Proof.
  intros Hi Hn. apply (metric_two_runs m h _ w Hi).
  rewrite metric_store_after, Hi.
  destruct (fit_of h (store w)) as [[r s] | ] eqn:Hf; [ | reflexivity ].
  apply (Hn (store w) r s Hf).
Qed.

(** ** The claims *)

(** C1.  On a handle that is an instance of [ChiFinder] and whose fit
    returns a pair, be it a tuple or the array that [numpy.polyfit] gives,
    with items [slp] and [incp] in this order, [chi_intercept] returns
    [incp] itself and [chi_gradient] returns [slp] itself: the second and
    the first component of that pair, with nothing else done to them. *)
Theorem chi_metrics_project_fit h w (t slp incp : object heap) s :
  isinstance h ChiFinder = true ->
  fit_of h (store w) = Some (Return t, s) ->
  iter_items t = Some [slp; incp] ->
  chi_intercept h w = (Return incp, after_fit w s) /\
  chi_gradient h w = (Return slp, after_fit w s).
Proof.
  intros Hi Hf Ht. split.
  - rewrite (chi_intercept_valid h w _ s Hi Hf). unfold bind.
    rewrite (unpack2_two_items t slp incp _ Ht). reflexivity.
  - rewrite (chi_gradient_valid h w _ s Hi Hf). unfold bind.
    rewrite (unpack2_two_items t slp incp _ Ht). reflexivity.
Qed.

(** C2.  On an object that is not an instance of [ChiFinder], both
    [chi_intercept] and [chi_gradient] raise the validator's error
    ([InvalidArgumentType]) and leave the world as it was: the store is
    untouched and the count of fit calls has not moved, so the fit routine
    was not invoked. *)
Theorem chi_metrics_type_gating h w :
  isinstance h ChiFinder = false ->
  chi_intercept h w = (Raise InvalidArgumentType, w) /\
  chi_gradient h w = (Raise InvalidArgumentType, w) /\
  fit_calls (snd (chi_intercept h w)) = fit_calls w /\
  fit_calls (snd (chi_gradient h w)) = fit_calls w.
Proof.
  intros Hi. destruct (invalid_handle_raises h w Hi) as [Hci Hcg].
  rewrite Hci, Hcg. auto.
Qed.

(** C3.  The validator returns, with the world unchanged, when the handle
    is an instance of [ChiFinder]; it raises [InvalidArgumentType] when
    the handle is not; it raises in that case only; and in both cases the
    world after is the world before, so raising is all it ever does. *)
Theorem validate_chi_finder_spec h w :
  (isinstance h ChiFinder = true ->
     _validate_chi_finder h w = (Return tt, w)) /\
  (isinstance h ChiFinder = false ->
     _validate_chi_finder h w = (Raise InvalidArgumentType, w)) /\
  ((exists e, fst (_validate_chi_finder h w) = Raise e) <->
     isinstance h ChiFinder = false) /\
  snd (_validate_chi_finder h w) = w.
Proof.
  split; [ apply validate_instance | ].
  split; [ apply validate_other | ].
  destruct (isinstance h ChiFinder) eqn:Hi.
  - rewrite (validate_instance h w Hi). simpl. split; [ | reflexivity ].
    split; [ intros [e He]; discriminate He | intros H; discriminate H ].
  - rewrite (validate_other h w Hi). simpl. split; [ | reflexivity ].
    split; [ reflexivity | intros _; eexists; reflexivity ].
Qed.


(** C5.  The error the validator raises holds nothing but the fact that
    it was raised: it is a [ValueError] whose message is the empty string,
    it is the same for every offending object and every world, so nothing
    of the offending value is in it, and both metric functions raise it
    as it is, so no metric name is in it either. *)
Theorem validator_error_has_no_payload h w e :
  fst (_validate_chi_finder h w) = Raise e ->
  exc_class e = "ValueError" /\
  exc_msg e = "" /\
  (forall h' w' e', fst (_validate_chi_finder h' w') = Raise e' -> e' = e) /\
  (forall m, fst (metric_function m h w) = Raise e).
Proof.
  assert (Hconst : forall h' w' e',
             fst (_validate_chi_finder h' w') = Raise e' ->
             isinstance h' ChiFinder = false /\ e' = InvalidArgumentType).
  { intros h' w' e'. destruct (isinstance h' ChiFinder) eqn:Hi.
    - rewrite (validate_instance h' w' Hi). intros H. discriminate H.
    - rewrite (validate_other h' w' Hi). simpl. intros H.
      injection H as H. auto. }
  intros He. destruct (Hconst h w e He) as [Hi ->].
  split; [ reflexivity | ]. split; [ reflexivity | ]. split.
  - intros h' w' e' He'. apply (Hconst h' w' e' He').
  - destruct (invalid_handle_raises h w Hi) as [Hci Hcg].
    intros [ | ]; simpl; [ rewrite Hci | rewrite Hcg ]; reflexivity.
Qed.

(** C6.  On a valid handle, two calls of [chi_intercept] made in worlds
    with the same store return the same outcome, and so do two calls of
    [chi_gradient]: with the fit a function of the store, a call repeated
    on an unmodified handle gives the identical result. *)
Theorem chi_metrics_deterministic h w1 w2 :
  isinstance h ChiFinder = true ->
  store w1 = store w2 ->
  fst (chi_intercept h w1) = fst (chi_intercept h w2) /\
  fst (chi_gradient h w1) = fst (chi_gradient h w2).
Proof.
  intros Hi Hs. split.
  - apply (metric_two_runs Intercept h w1 w2 Hi Hs).
  - apply (metric_two_runs Gradient h w1 w2 Hi Hs).
Qed.

(** C7.  On a valid handle every call of [chi_intercept] or of
    [chi_gradient] runs the handle's own fit routine exactly once, whatever
    was called before: the world it leaves is the one that single run of
    the fit left, with the count of fit calls one higher.  So a run of [n]
    invocations makes [n] calls of the fit and leaves the store that [n]
    runs of the handle's fit, one after the other, produce: nothing is
    cached. *)
Theorem chi_metrics_do_not_cache h :
  isinstance h ChiFinder = true ->
  (forall m w r s,
      fit_of h (store w) = Some (r, s) ->
      snd (metric_function m h w) = after_fit w s) /\
  (forall m w, fit_calls (snd (metric_function m h w)) = S (fit_calls w)) /\
  (forall ms w,
      fit_calls (invoke_all ms h w) = fit_calls w + length ms) /\
  (forall ms w,
      store (invoke_all ms h w)
        = Nat.iter (length ms) (fit_store h) (store w)).
Proof.
  intros Hi.
  assert (Hworld : forall m w,
             snd (metric_function m h w)
               = after_fit w (fit_store h (store w))).
  { intros m w. destruct (valid_handle_fit h (store w) Hi) as (r & s & Hf).
    rewrite (metric_world_after m h w r s Hi Hf).
    unfold fit_store. rewrite Hf. reflexivity. }
  split; [ | split; [ | split ] ].
  - intros m w r s Hf. apply (metric_world_after m h w r s Hi Hf).
  - intros m w. rewrite Hworld. reflexivity.
  - induction ms as [ | m ms IH ]; intros w; simpl.
    + lia.
    + rewrite IH, Hworld. simpl. lia.
  - induction ms as [ | m ms IH ]; intros w.
    + reflexivity.
    + change (invoke_all (m :: ms) h w)
        with (invoke_all ms h (snd (metric_function m h w))).
      rewrite IH, Hworld.
      change (length (m :: ms)) with (S (length ms)).
      rewrite Nat.iter_succ_r. reflexivity.
Qed.

(** C8.  When the fit routine of the handle writes nothing to the store,
    the store after a call of [chi_intercept] or of [chi_gradient] is the
    store before it, whether the call returned or raised, and on any
    object, valid or not. *)
Theorem chi_metrics_preserve_store h w :
  non_mutating h ->
  store (snd (chi_intercept h w)) = store w /\
  store (snd (chi_gradient h w)) = store w.
Proof.
  intros Hn.
  assert (Hm : forall m, store (snd (metric_function m h w)) = store w).
  { intros m. rewrite metric_store_after.
    destruct (isinstance h ChiFinder); [ | reflexivity ].
    destruct (fit_of h (store w)) as [[r s] | ] eqn:Hf; [ | reflexivity ].
    apply (Hn (store w) r s Hf). }
  split; [ apply (Hm Intercept) | apply (Hm Gradient) ].
Qed.

(** C10.  On a valid handle whose fit returns a sequence, when the number
    of its items is not two both metric functions raise the unpacking
    failure, a [ValueError], and return nothing; and a metric function
    returns a value only when the sequence has exactly two items. *)
Theorem wrong_arity_raises h w (t : object heap) items s :
  isinstance h ChiFinder = true ->
  fit_of h (store w) = Some (Return t, s) ->
  iter_items t = Some items ->
  (length items <> 2 ->
     chi_intercept h w = (Raise (unpack_error (length items)), after_fit w s) /\
     chi_gradient h w = (Raise (unpack_error (length items)), after_fit w s) /\
     exc_class (unpack_error (length items)) = "ValueError") /\
  (forall m v, fst (metric_function m h w) = Return v -> length items = 2).
Proof.
  intros Hi Hf Ht. split.
  - intros Hn.
    rewrite (chi_intercept_valid h w _ s Hi Hf),
            (chi_gradient_valid h w _ s Hi Hf).
    unfold bind. rewrite (unpack2_wrong_length t items _ Ht Hn).
    split; [ reflexivity | ]. split; [ reflexivity | ].
    unfold unpack_error. destruct (Nat.ltb (length items) 2); reflexivity.
  - intros m v Hv.
    assert (Hp : exists p w', unpack2 t (after_fit w s) = (Return p, w')).
    { destruct m; simpl in Hv;
        [ rewrite (chi_intercept_valid h w _ s Hi Hf) in Hv
        | rewrite (chi_gradient_valid h w _ s Hi Hf) in Hv ];
        unfold bind in Hv;
        destruct (unpack2 t (after_fit w s)) as [[p | e] w'];
        try discriminate Hv; exists p, w'; reflexivity. }
    destruct Hp as (p & w' & Hp).
    destruct (unpack2_returns t _ p w' Hp) as (a & b & Hab & _).
    rewrite Ht in Hab. injection Hab as ->. reflexivity.
Qed.

(** ** Further properties of the module *)

Lemma unpack2_non_iterable (t : object heap) w :
  iter_items t = None ->
  unpack2 t w
    = (Raise (TypeError ("cannot unpack non-iterable " ++ type_name t
                         ++ " object")), w).
Proof. intros Ht. unfold unpack2. rewrite Ht. reflexivity. Qed.

(** What a returned value tells about the run that returned it. *)
Lemma chi_intercept_returns h w (v : object heap) :
  fst (chi_intercept h w) = Return v ->
  isinstance h ChiFinder = true /\
  exists t s a,
    fit_of h (store w) = Some (Return t, s) /\ iter_items t = Some [a; v].
Proof.
  intros Hv. destruct (isinstance h ChiFinder) eqn:Hi.
  - split; [ reflexivity | ].
    destruct (valid_handle_fit h (store w) Hi) as (r & s & Hf).
    rewrite (chi_intercept_valid h w r s Hi Hf) in Hv.
    destruct r as [t | e]; [ | discriminate Hv ].
    unfold bind in Hv.
    destruct (unpack2 t (after_fit w s)) as [[p | e] w'] eqn:Hu;
      [ | discriminate Hv ].
    destruct (unpack2_returns t _ p w' Hu) as (a & b & Hab & -> & _).
    simpl in Hv. injection Hv as <-. exists t, s, a. auto.
  - rewrite (proj1 (invalid_handle_raises h w Hi)) in Hv. discriminate Hv.
Qed.

Lemma chi_gradient_returns h w (v : object heap) :
  fst (chi_gradient h w) = Return v ->
  isinstance h ChiFinder = true /\
  exists t s b,
    fit_of h (store w) = Some (Return t, s) /\ iter_items t = Some [v; b].
Proof.
  intros Hv. destruct (isinstance h ChiFinder) eqn:Hi.
  - split; [ reflexivity | ].
    destruct (valid_handle_fit h (store w) Hi) as (r & s & Hf).
    rewrite (chi_gradient_valid h w r s Hi Hf) in Hv.
    destruct r as [t | e]; [ | discriminate Hv ].
    unfold bind in Hv.
    destruct (unpack2 t (after_fit w s)) as [[p | e] w'] eqn:Hu;
      [ | discriminate Hv ].
    destruct (unpack2_returns t _ p w' Hu) as (a & b & Hab & -> & _).
    simpl in Hv. injection Hv as <-. exists t, s, b. auto.
  - rewrite (proj2 (invalid_handle_raises h w Hi)) in Hv. discriminate Hv.
Qed.

(** The interpreter's unpacking failures all carry a message, so none of
    them is the validator's error. *)
Lemma unpack_error_not_invalid n : unpack_error n <> InvalidArgumentType.
Proof.
  unfold unpack_error, InvalidArgumentType, ValueError.
  destruct (Nat.ltb n 2); simpl; intros H; discriminate H.
Qed.

(** X1.  [chi_intercept] returns [v] exactly when the handle is an
    instance of [ChiFinder] and its fit returned an iterable of exactly two
    items whose second is [v]; [chi_gradient] returns [v] exactly when the
    handle is an instance and the fit returned an iterable of exactly two
    items whose first is [v].  The iterable may be a tuple or an array, as
    [numpy.polyfit] gives. *)
Theorem chi_metrics_return_iff h w (v : object heap) :
  (fst (chi_intercept h w) = Return v <->
     isinstance h ChiFinder = true /\
     exists t s a,
       fit_of h (store w) = Some (Return t, s) /\ iter_items t = Some [a; v])
  /\
  (fst (chi_gradient h w) = Return v <->
     isinstance h ChiFinder = true /\
     exists t s b,
       fit_of h (store w) = Some (Return t, s) /\ iter_items t = Some [v; b]).
Proof.
  split; split.
  - apply chi_intercept_returns.
  - intros (Hi & t & s & a & Hf & Ht).
    rewrite (chi_intercept_valid h w _ s Hi Hf). unfold bind.
    rewrite (unpack2_two_items t a v _ Ht). reflexivity.
  - apply chi_gradient_returns.
  - intros (Hi & t & s & b & Hf & Ht).
    rewrite (chi_gradient_valid h w _ s Hi Hf). unfold bind.
    rewrite (unpack2_two_items t v b _ Ht). reflexivity.
Qed.

(** X2.  On a valid handle whose fit returns an object that cannot be
    iterated ([None], a single float, an instance), both metric functions
    raise the [TypeError] of the unpacking, after the one call of the fit
    and in the store that call left. *)
Theorem non_iterable_fit_raises h w (t : object heap) s :
  isinstance h ChiFinder = true ->
  fit_of h (store w) = Some (Return t, s) ->
  iter_items t = None ->
  chi_intercept h w
    = (Raise (TypeError ("cannot unpack non-iterable " ++ type_name t
                         ++ " object")), after_fit w s) /\
  chi_gradient h w
    = (Raise (TypeError ("cannot unpack non-iterable " ++ type_name t
                         ++ " object")), after_fit w s).
Proof.
  intros Hi Hf Ht. split.
  - rewrite (chi_intercept_valid h w _ s Hi Hf). unfold bind.
    rewrite (unpack2_non_iterable t _ Ht). reflexivity.
  - rewrite (chi_gradient_valid h w _ s Hi Hf). unfold bind.
    rewrite (unpack2_non_iterable t _ Ht). reflexivity.
Qed.

(** X3.  An exception that comes out of a metric function has one of three
    origins and no other: the validator, on an object that is not an
    instance (then it is [ValueError] with the empty message); the fit,
    which raised that very exception; or the unpacking of what the fit
    returned, a [TypeError] on a non-iterable and the arity [ValueError] on
    a sequence of the wrong length, which is never the validator's error. *)
Theorem chi_metrics_failure_origin m h w e :
  fst (metric_function m h w) = Raise e ->
  (isinstance h ChiFinder = false /\ e = InvalidArgumentType) \/
  (isinstance h ChiFinder = true /\
   exists s, fit_of h (store w) = Some (Raise e, s)) \/
  (isinstance h ChiFinder = true /\
   e <> InvalidArgumentType /\
   exists t s,
     fit_of h (store w) = Some (Return t, s) /\
     ((iter_items t = None /\ exc_class e = "TypeError") \/
      (exists items,
          iter_items t = Some items /\ length items <> 2 /\
          e = unpack_error (length items)))).
Proof.
  intros He. destruct (isinstance h ChiFinder) eqn:Hi.
  - right.
    destruct (valid_handle_fit h (store w) Hi) as (r & s & Hf).
    assert (Hrun : fst (metric_function m h w) =
                   match r with
                   | Raise e' => Raise e'
                   | Return t =>
                       match fst (unpack2 t (after_fit w s)) with
                       | Return _ => fst (metric_function m h w)
                       | Raise e' => Raise e'
                       end
                   end).
    { destruct m; simpl;
        [ rewrite (chi_intercept_valid h w r s Hi Hf)
        | rewrite (chi_gradient_valid h w r s Hi Hf) ];
        (destruct r as [t | e']; [ | reflexivity ]);
        unfold bind;
        destruct (unpack2 t (after_fit w s)) as [[[a b] | e'] w'];
        reflexivity. }
    destruct r as [t | e'].
    + right. split; [ reflexivity | ].
      destruct (iter_items t) as [ items | ] eqn:Ht.
      * destruct (Nat.eq_dec (length items) 2) as [Hn | Hn].
        -- exfalso.
           destruct items as [ | a [ | b [ | c rest ] ] ]; try discriminate Hn.
           destruct m; simpl in He;
             [ rewrite (chi_intercept_valid h w _ s Hi Hf) in He
             | rewrite (chi_gradient_valid h w _ s Hi Hf) in He ];
             unfold bind in He;
             rewrite (unpack2_two_items t a b _ Ht) in He; discriminate He.
        -- rewrite (unpack2_wrong_length t items _ Ht Hn) in Hrun.
           simpl in Hrun. rewrite He in Hrun. injection Hrun as ->.
           split; [ apply unpack_error_not_invalid | ].
           exists t, s. split; [ exact Hf | ]. right.
           exists items. auto.
      * rewrite (unpack2_non_iterable t _ Ht) in Hrun.
        simpl in Hrun. rewrite He in Hrun. injection Hrun as ->.
        split; [ intros H; discriminate H | ].
        exists t, s. split; [ exact Hf | ]. left. auto.
    + left. split; [ reflexivity | ].
      rewrite He in Hrun. injection Hrun as ->. exists s. exact Hf.
  - left. split; [ reflexivity | ].
    destruct (invalid_handle_raises h w Hi) as [Hci Hcg].
    destruct m; simpl in He; [ rewrite Hci in He | rewrite Hcg in He ];
      injection He as <-; reflexivity.
Qed.

(** X4.  On any object and in any world the two metric functions stand or
    fall together: they leave the same world, and one raises [e] exactly
    when the other raises [e]; they differ only in the value returned. *)
Theorem chi_metrics_fail_together h w :
  snd (chi_intercept h w) = snd (chi_gradient h w) /\
  (forall e,
      fst (chi_intercept h w) = Raise e <-> fst (chi_gradient h w) = Raise e).
Proof.
  destruct (isinstance h ChiFinder) eqn:Hi.
  - destruct (valid_handle_fit h (store w) Hi) as (r & s & Hf).
    rewrite (chi_intercept_valid h w r s Hi Hf),
            (chi_gradient_valid h w r s Hi Hf).
    destruct r as [t | e']; [ | split; [ reflexivity | tauto ] ].
    unfold bind. destruct (unpack2 t (after_fit w s)) as [[[a b] | e'] w'];
      simpl; split; try reflexivity; intros e; split; intros H;
      try discriminate H; exact H.
  - destruct (invalid_handle_raises h w Hi) as [-> ->].
    split; [ reflexivity | tauto ].
Qed.

(** X5.  On a valid handle whose fit writes nothing, a slope returned by
    [chi_gradient] and an intercept returned by a call of [chi_intercept]
    made right after it are the two items of one and the same result of
    the fit: the two metrics are consistent with each other although each
    runs the fit anew. *)
Theorem successive_metrics_share_fit h w (a b : object heap) :
  isinstance h ChiFinder = true ->
  non_mutating h ->
  fst (chi_gradient h w) = Return a ->
  fst (chi_intercept h (snd (chi_gradient h w))) = Return b ->
  exists t s,
    fit_of h (store w) = Some (Return t, s) /\ iter_items t = Some [a; b].
Proof.
  intros Hi Hn Ha Hb.
  destruct (chi_gradient_returns h w a Ha) as (_ & t & s & b' & Hf & Ht).
  destruct (chi_intercept_returns h _ b Hb) as (_ & t2 & s2 & a2 & Hf2 & Ht2).
  assert (Hs : store (snd (chi_gradient h w)) = store w).
  { change (store (snd (metric_function Gradient h w)) = store w).
    rewrite (metric_world_after Gradient h w _ s Hi Hf). simpl.
    apply (Hn (store w) _ s Hf). }
  rewrite Hs, Hf in Hf2. injection Hf2 as <- <-.
  rewrite Ht in Ht2. injection Ht2 as <- <-.
  exists t, s. auto.
Qed.

End Properties.

(** * The theorems at the sample handles *)

(** C1 at [cf], whose fit yields the tuple [(1.5, -0.25)], and at
    [cf_mutating], whose fit yields the array [[2.0, 3.0]]. *)
Lemma chi_metrics_project_fit_samples :
  (isinstance cf ChiFinder = true /\
   fit_of cf (store w0)
     = Some (Return (PyTuple [PyFloat 1.5%float; PyFloat (-0.25)%float]), 7) /\
   chi_intercept cf w0 = (Return (PyFloat (-0.25)%float), after_fit w0 7) /\
   chi_gradient cf w0 = (Return (PyFloat 1.5%float), after_fit w0 7)) /\
  (isinstance cf_mutating ChiFinder = true /\
   fit_of cf_mutating (store w0)
     = Some (Return (PyArray [2.0%float; 3.0%float]), 8) /\
   chi_intercept cf_mutating w0
     = (Return (PyFloat 3.0%float), after_fit w0 8) /\
   chi_gradient cf_mutating w0
     = (Return (PyFloat 2.0%float), after_fit w0 8)).
Proof.
  split; (split; [ reflexivity | ]; split; [ reflexivity | ]).
  - apply (chi_metrics_project_fit cf w0
             (PyTuple [PyFloat 1.5%float; PyFloat (-0.25)%float]) _ _ 7);
      reflexivity.
  - apply (chi_metrics_project_fit cf_mutating w0
             (PyArray [2.0%float; 3.0%float]) _ _ 8);
      reflexivity.
Defined.

(** C2 at [None], at a raw array and at an object of another class. *)
Lemma chi_metrics_type_gating_samples :
  (isinstance (PyNone : object nat) ChiFinder = false /\
   chi_intercept PyNone w0 = (Raise InvalidArgumentType, w0) /\
   chi_gradient PyNone w0 = (Raise InvalidArgumentType, w0)) /\
  (isinstance raw_array ChiFinder = false /\
   chi_intercept raw_array w0 = (Raise InvalidArgumentType, w0) /\
   chi_gradient raw_array w0 = (Raise InvalidArgumentType, w0)) /\
  (isinstance stranger ChiFinder = false /\
   chi_intercept stranger w0 = (Raise InvalidArgumentType, w0) /\
   chi_gradient stranger w0 = (Raise InvalidArgumentType, w0)).
Proof.
  split; [ | split ]; (split; [ reflexivity | ]).
  - destruct (chi_metrics_type_gating (PyNone : object nat) w0 eq_refl)
      as (Hci & Hcg & _). split; assumption.
  - destruct (chi_metrics_type_gating raw_array w0 eq_refl)
      as (Hci & Hcg & _). split; assumption.
  - destruct (chi_metrics_type_gating stranger w0 eq_refl)
      as (Hci & Hcg & _). split; assumption.
Defined.

(** C3 at [cf] and at [None]. *)
Lemma validate_chi_finder_spec_samples :
  _validate_chi_finder cf w0 = (Return tt, w0) /\
  _validate_chi_finder (PyNone : object nat) w0
    = (Raise InvalidArgumentType, w0).
Proof.
  split.
  - apply (proj1 (validate_chi_finder_spec cf w0)). reflexivity.
  - apply (proj1 (proj2 (validate_chi_finder_spec (PyNone : object nat) w0))).
    reflexivity.
Defined.


(** C5 at the raw array. *)
Lemma validator_error_has_no_payload_raw_array :
  fst (_validate_chi_finder raw_array w0) = Raise (ValueError "") /\
  exc_class (ValueError "") = "ValueError" /\
  exc_msg (ValueError "") = "" /\
  (forall (h' : object nat) w' e',
      fst (_validate_chi_finder h' w') = Raise e' -> e' = ValueError "") /\
  (forall m, fst (metric_function m raw_array w0) = Raise (ValueError "")).
Proof.
  split; [ reflexivity | ].
  apply (validator_error_has_no_payload raw_array w0 (ValueError "")).
  reflexivity.
Defined.

(** C6 at [cf]: a call, and a second call in the world the first left. *)
Lemma chi_metrics_deterministic_cf :
  isinstance cf ChiFinder = true /\
  store w0 = store (snd (chi_intercept cf w0)) /\
  fst (chi_intercept cf w0) = fst (chi_intercept cf (snd (chi_intercept cf w0))) /\
  fst (chi_gradient cf w0) = fst (chi_gradient cf (snd (chi_intercept cf w0))).
Proof.
  split; [ reflexivity | ]. split; [ reflexivity | ].
  apply (chi_metrics_deterministic cf w0 (snd (chi_intercept cf w0)));
    reflexivity.
Defined.

(** C7 at [cf_mutating], whose fit adds one to the store: three
    invocations make three calls of the fit and take the store from 7
    to 10. *)
Lemma chi_metrics_do_not_cache_cf_mutating :
  isinstance cf_mutating ChiFinder = true /\
  snd (chi_intercept cf_mutating w0) = {| store := 8; fit_calls := 1 |} /\
  fit_calls (invoke_all [Intercept; Gradient; Intercept] cf_mutating w0)
    = fit_calls w0 + 3 /\
  store (invoke_all [Intercept; Gradient; Intercept] cf_mutating w0)
    = Nat.iter 3 (fit_store cf_mutating) (store w0) /\
  Nat.iter 3 (fit_store cf_mutating) (store w0) = 10.
Proof.
  split; [ reflexivity | ].
  destruct (chi_metrics_do_not_cache cf_mutating eq_refl)
    as (Hworld & _ & Hcalls & Hstore).
  split; [ | split; [ | split ] ].
  - apply (Hworld Intercept w0 (Return (PyArray [2.0%float; 3.0%float])) 8).
    reflexivity.
  - apply (Hcalls [Intercept; Gradient; Intercept] w0).
  - apply (Hstore [Intercept; Gradient; Intercept] w0).
  - reflexivity.
Defined.

(** C8 at [cf_degenerate], where the call raises. *)
Lemma chi_metrics_preserve_store_cf_degenerate :
  non_mutating cf_degenerate /\
  store (snd (chi_intercept cf_degenerate w0)) = store w0 /\
  store (snd (chi_gradient cf_degenerate w0)) = store w0.
Proof.
  assert (Hn : non_mutating cf_degenerate).
  { intros s r s' Hf. simpl in Hf. injection Hf as _ Hs. symmetry. exact Hs. }
  split; [ exact Hn | ].
  apply (chi_metrics_preserve_store cf_degenerate w0 Hn).
Defined.

(** C10 at [cf_triple]: three values, an unpacking failure. *)
Lemma wrong_arity_raises_cf_triple :
  isinstance cf_triple ChiFinder = true /\
  chi_intercept cf_triple w0
    = (Raise (ValueError "too many values to unpack (expected 2)"),
       after_fit w0 7) /\
  chi_gradient cf_triple w0
    = (Raise (ValueError "too many values to unpack (expected 2)"),
       after_fit w0 7).
Proof.
  split; [ reflexivity | ].
  destruct (proj1 (wrong_arity_raises cf_triple w0 _ _ 7
                     eq_refl eq_refl eq_refl)) as (Hci & Hcg & _).
  - simpl. lia.
  - split; [ exact Hci | exact Hcg ].
Defined.

(** X1 at [cf_mutating], whose fit returns the array [[2.0, 3.0]]: the
    intercept is [3.0] and the slope [2.0]. *)
Lemma chi_metrics_return_iff_cf_mutating :
  fst (chi_intercept cf_mutating w0) = Return (PyFloat 3.0%float) /\
  fst (chi_gradient cf_mutating w0) = Return (PyFloat 2.0%float).
Proof.
  split.
  - apply (proj1 (chi_metrics_return_iff cf_mutating w0 (PyFloat 3.0%float))).
    split; [ reflexivity | ].
    exists (PyArray [2.0%float; 3.0%float]), 8, (PyFloat 2.0%float).
    split; reflexivity.
  - apply (proj2 (chi_metrics_return_iff cf_mutating w0 (PyFloat 2.0%float))).
    split; [ reflexivity | ].
    exists (PyArray [2.0%float; 3.0%float]), 8, (PyFloat 3.0%float).
    split; reflexivity.
Defined.

(** X2 at [cf_none]: the fit returns [None] and has written the store. *)
Lemma non_iterable_fit_raises_cf_none :
  isinstance cf_none ChiFinder = true /\
  fit_of cf_none (store w0) = Some (Return PyNone, 8) /\
  iter_items (PyNone : object nat) = None /\
  chi_intercept cf_none w0
    = (Raise (TypeError "cannot unpack non-iterable NoneType object"),
       {| store := 8; fit_calls := 1 |}) /\
  chi_gradient cf_none w0
    = (Raise (TypeError "cannot unpack non-iterable NoneType object"),
       {| store := 8; fit_calls := 1 |}).
Proof.
  split; [ reflexivity | ]. split; [ reflexivity | ]. split; [ reflexivity | ].
  apply (non_iterable_fit_raises cf_none w0 PyNone 8); reflexivity.
Defined.

(** X3 at [cf_triple]: the [ValueError] it raises is traced to the
    unpacking, not to the validator. *)
Lemma chi_metrics_failure_origin_cf_triple :
  fst (metric_function Intercept cf_triple w0) = Raise (unpack_error 3) /\
  ((isinstance cf_triple ChiFinder = false /\
    unpack_error 3 = InvalidArgumentType) \/
   (isinstance cf_triple ChiFinder = true /\
    exists s, fit_of cf_triple (store w0) = Some (Raise (unpack_error 3), s)) \/
   (isinstance cf_triple ChiFinder = true /\
    unpack_error 3 <> InvalidArgumentType /\
    exists t s,
      fit_of cf_triple (store w0) = Some (Return t, s) /\
      ((iter_items t = None /\ exc_class (unpack_error 3) = "TypeError") \/
       (exists items,
           iter_items t = Some items /\ length items <> 2 /\
           unpack_error 3 = unpack_error (length items))))).
Proof.
  split; [ reflexivity | ].
  apply (chi_metrics_failure_origin Intercept cf_triple w0 (unpack_error 3)).
  reflexivity.
Defined.

(** X5 at [cf]: the slope and the intercept of two calls in a row. *)
Lemma successive_metrics_share_fit_cf :
  non_mutating cf /\
  fst (chi_gradient cf w0) = Return (PyFloat 1.5%float) /\
  fst (chi_intercept cf (snd (chi_gradient cf w0)))
    = Return (PyFloat (-0.25)%float) /\
  exists t s,
    fit_of cf (store w0) = Some (Return t, s) /\
    iter_items t = Some [PyFloat 1.5%float; PyFloat (-0.25)%float].
Proof.
  assert (Hn : non_mutating cf).
  { intros s r s' Hf. simpl in Hf. injection Hf as _ Hs. symmetry. exact Hs. }
  split; [ exact Hn | ]. split; [ reflexivity | ]. split; [ reflexivity | ].
  apply (successive_metrics_share_fit cf w0 _ _ eq_refl Hn);
    reflexivity.
Defined.
